(** * FinancialModels: WACC, terminal growth and historical growth statistics

    A shallow embedding of [WACC_TerminalGrowth_Model.py] and the properties
    its specification states about it.

    Numbers.  The program computes with Python floats and with numpy
    [int64] and [float64] arrays.  It is embedded twice.

    - [Binary64] is the program on binary64 floats (Rocq's primitive
      floats, rounding to nearest, ties to even), with numpy's wrapping
      int64 arithmetic for a list of Python ints and numpy's order of
      summation.  A Python scalar division by zero raises
      [ZeroDivisionError]; a numpy division by zero stores an infinity or a
      nan; a numpy reduction of an empty array yields nan for [mean],
      [median] and [std] and raises [ValueError] for [min] and [max].
      Scalar arguments are Python floats.

    - The definitions outside [Binary64] are the same expressions over the
      real numbers, where rounding and overflow are not represented and a
      numpy division by zero ends in the outcome [NonFinite].  They carry
      the properties that do not depend on rounding. *)

From Stdlib Require Import Floats.
From Stdlib Require Import String.
From Stdlib Require Import Reals Lra Psatz ZArith Bool Arith Lia.
From Stdlib Require Import List Permutation Sorted.
Import ListNotations.

#[local] Set Warnings "-inexact-float".

Open Scope R_scope.

(** ** The Python runtime *)

Module Py.

(** Exception classes.  [ZeroDivisionError] and [ValueError] are the two
    builtin classes the program can raise; the source defines no class of
    its own.  [InsufficientDataError] is the typed error named by the
    specification: no statement of the source constructs it. *)
Inductive exception : Type :=
| ZeroDivisionError
| ValueError (msg : string)
| InsufficientDataError.

(** The outcome of a call: a returned value, a raised exception, or
    [NonFinite] when the call returns floats that include an infinity or a
    nan, which real numbers do not represent. *)
Inductive outcome (A : Type) : Type :=
| Return (a : A)
| Raise (e : exception)
| NonFinite.

Arguments Return {A} a.
Arguments Raise {A} e.
Arguments NonFinite {A}.

Definition bind {A B : Type} (m : outcome A) (k : A -> outcome B) : outcome B :=
  match m with
  | Return a => k a
  | Raise e => Raise e
  | NonFinite => NonFinite
  end.

(** [x / y] on Python numbers. *)
Definition truediv (x y : R) : outcome R :=
  if Req_dec_T y 0 then Raise ZeroDivisionError else Return (x / y).

(** A keyword parameter with a default value: [None] when the caller
    omits it. *)
Definition default {A : Type} (d : A) (arg : option A) : A :=
  match arg with
  | Some a => a
  | None => d
  end.

(** [l[a:]] and [l[:-b]] and [l[a:b]] for non-negative [a], [b]. *)
Definition slice_from {A : Type} (a : nat) (l : list A) : list A :=
  skipn a l.

Definition slice_to_last {A : Type} (b : nat) (l : list A) : list A :=
  firstn (length l - b) l.

Definition slice {A : Type} (a b : nat) (l : list A) : list A :=
  firstn (b - a) (skipn a l).

(** A [dict] with string keys, in insertion order. *)
Definition dict (V : Type) : Type := list (string * V).


Definition keys {V : Type} (d : dict V) : list string := map fst d.

End Py.

Import Py.

Notation "x <- m ;; k" := (Py.bind m (fun x => k))
  (at level 61, m at next level, right associativity).

(** ** The numpy functions the program calls *)

Module np.

(** A [float64] scalar returned by a reduction. *)
Inductive float64 : Type :=
| Fin (r : R)
| NaN.

(** [np.array(l)] of a list of numbers: a one-dimensional array. *)
Definition array (l : list R) : list R := l.

(** [a - b] on arrays of one shape. *)
Fixpoint subtract (a b : list R) : list R :=
  match a, b with
  | x :: a', y :: b' => (x - y) :: subtract a' b'
  | _, _ => []
  end.

(** [a / b] on arrays of one shape: [None] when a divisor is zero, where
    numpy stores an infinity or a nan. *)
Fixpoint true_divide (a b : list R) : option (list R) :=
  match a, b with
  | x :: a', y :: b' =>
      if Req_dec_T y 0 then None
      else option_map (cons (x / y)) (true_divide a' b')
  | _, _ => Some []
  end.

(** [add.reduce]. *)
Definition sum (a : list R) : R := fold_left Rplus a 0.

(** [np.mean]: the sum over the number of elements. *)
Definition mean (a : list R) : float64 :=
  match a with
  | [] => NaN
  | _ :: _ => Fin (sum a / INR (length a))
  end.

(** [np.std] with its default [ddof = 0]. *)
Definition std (a : list R) : float64 :=
  match a with
  | [] => NaN
  | _ :: _ =>
      let rcount := INR (length a) in
      let arrmean := sum a / rcount in
      let x := map (fun v => v - arrmean) a in
      let x := map (fun v => v * v) x in
      let ret := sum x / rcount in
      Fin (sqrt ret)
  end.

(** [np.sort]; [np.median] only needs the middle positions in place
    ([np.partition]), which hold the same values. *)
Fixpoint insert (x : R) (l : list R) : list R :=
  match l with
  | [] => [x]
  | y :: l' => if Rle_dec x y then x :: l else y :: insert x l'
  end.

Fixpoint sort (l : list R) : list R :=
  match l with
  | [] => []
  | x :: l' => insert x (sort l')
  end.

(** [np.median]: the mean of the middle element, or of the two middle
    elements. *)
Definition median (a : list R) : float64 :=
  let part := sort a in
  let index := Nat.div (length part) 2 in
  if Nat.odd (length part)
  then mean (slice index (index + 1) part)
  else mean (slice (index - 1) (index + 1) part).

Definition zero_size (op : string) : exception :=
  ValueError
    ("zero-size array to reduction operation " ++ op
     ++ " which has no identity")%string.

(** [np.min] and [np.max]: [minimum.reduce] and [maximum.reduce], which
    have no identity. *)
Definition min (a : list R) : outcome float64 :=
  match a with
  | [] => Raise (zero_size "minimum")
  | x :: a' => Return (Fin (fold_left Rmin a' x))
  end.

Definition max (a : list R) : outcome float64 :=
  match a with
  | [] => Raise (zero_size "maximum")
  | x :: a' => Return (Fin (fold_left Rmax a' x))
  end.

End np.

(** ** class FinancialModels over the real numbers *)

Definition calculate_wacc
    (equity_value debt_value cost_of_equity cost_of_debt tax_rate : R)
    : outcome R :=
  let total_value := equity_value + debt_value in
  equity_weight <- truediv equity_value total_value ;;
  debt_weight <- truediv debt_value total_value ;;
  let wacc :=
    (equity_weight * cost_of_equity)
    + (debt_weight * cost_of_debt * (1 - tax_rate)) in
  Return wacc.

Definition calculate_cost_of_equity
    (risk_free_rate beta market_risk_premium : R) : R :=
  risk_free_rate + (beta * market_risk_premium).

Definition calculate_terminal_value
    (final_cash_flow terminal_growth_rate discount_rate : R) : outcome R :=
  truediv (final_cash_flow * (1 + terminal_growth_rate))
          (discount_rate - terminal_growth_rate).

Definition historical_growth_analysis
    (historical_data : list R) (periods : option Z)
    : outcome (dict np.float64) :=
  let periods := default 5%Z periods in
  let data := np.array historical_data in
  match np.true_divide
          (np.subtract (slice_from 1 data) (slice_to_last 1 data))
          (slice_to_last 1 data)
  with
  | None => NonFinite
  | Some growth_rates =>
      let mean_growth := np.mean growth_rates in
      let median_growth := np.median growth_rates in
      let std_dev := np.std growth_rates in
      min_growth <- np.min growth_rates ;;
      max_growth <- np.max growth_rates ;;
      Return [ ("mean_growth", mean_growth);
               ("median_growth", median_growth);
               ("std_dev", std_dev);
               ("min_growth", min_growth);
               ("max_growth", max_growth) ]%string
  end.

(** The failure the specification asks for on too short a series. *)
Definition fails_with_insufficient_data {A : Type} (o : outcome A) : Prop :=
  o = Raise InsufficientDataError.

(** ** The program on binary64 *)

Module Binary64.

Local Open Scope float_scope.

(** [x / y] on Python floats: [ZeroDivisionError] when [y == 0.0] (either
    zero), an IEEE quotient otherwise, infinities and nan included. *)
Definition truediv (x y : float) : outcome float :=
  if (y =? 0) then Raise ZeroDivisionError else Return (x / y).



Definition calculate_wacc
    (equity_value debt_value cost_of_equity cost_of_debt tax_rate : float)
    : outcome float :=
  let total_value := equity_value + debt_value in
  equity_weight <- truediv equity_value total_value ;;
  debt_weight <- truediv debt_value total_value ;;
  let wacc :=
    (equity_weight * cost_of_equity)
    + (debt_weight * cost_of_debt * (1 - tax_rate)) in
  Return wacc.

Definition calculate_cost_of_equity
    (risk_free_rate beta market_risk_premium : float) : float :=
  risk_free_rate + (beta * market_risk_premium).

Definition calculate_terminal_growth_gdp
    (real_gdp_growth inflation_rate : float) (adjustment_factor : option float)
    : float :=
  let adjustment_factor := default 1 adjustment_factor in
  (real_gdp_growth + inflation_rate) * adjustment_factor.

Definition calculate_terminal_growth_reinvestment
    (return_on_capital reinvestment_rate : float) : float :=
  return_on_capital * reinvestment_rate.

Definition calculate_reinvestment_rate
    (capex depreciation working_capital_change ebit tax_rate : float)
    : outcome float :=
  truediv (capex - depreciation + working_capital_change)
          (ebit * (1 - tax_rate)).

Definition calculate_terminal_value
    (final_cash_flow terminal_growth_rate discount_rate : float)
    : outcome float :=
  truediv (final_cash_flow * (1 + terminal_growth_rate))
          (discount_rate - terminal_growth_rate).

(** An element of the list handed to [historical_growth_analysis]: a
    Python int or a Python float. *)
Inductive number : Type :=
| PyInt (z : Z)
| PyFloat (x : float).

(** The binary64 nearest to an integer, ties to even: the conversion of
    an int64 element, or of a Python int, to [float64]. *)
Definition of_Z (z : Z) : float :=
  SF2Prim (binary_normalize prec emax z 0 false).

Definition of_nat (n : nat) : float := of_Z (Z.of_nat n).

Module np.

(** A one-dimensional array of dtype [int64] or [float64]. *)
Inductive ndarray : Type :=
| int64 (a : list Z)
| float64 (a : list float).

Definition in_int64 (z : Z) : bool :=
  ((- 2 ^ 63 <=? z) && (z <? 2 ^ 63))%Z.

(** int64 arithmetic wraps around. *)
Definition wrap (z : Z) : Z := ((z + 2 ^ 63) mod 2 ^ 64 - 2 ^ 63)%Z.

Definition is_int (x : number) : bool :=
  match x with
  | PyInt _ => true
  | PyFloat _ => false
  end.

Definition fits (x : number) : bool :=
  match x with
  | PyInt z => in_int64 z
  | PyFloat _ => true
  end.

Definition as_int (x : number) : Z :=
  match x with
  | PyInt z => z
  | PyFloat _ => 0%Z
  end.

Definition as_float (x : number) : float :=
  match x with
  | PyInt z => of_Z z
  | PyFloat f => f
  end.

Definition size (a : ndarray) : nat :=
  match a with
  | int64 l => length l
  | float64 l => length l
  end.

(** [np.array(l)]: [int64] for a list of ints, [float64] for an empty
    list or a list holding a float.  [None] when the list holds an int
    outside the int64 range: numpy then builds a [uint64] or an [object]
    array, which this embedding leaves out. *)
Definition array (l : list number) : option ndarray :=
  if negb (forallb fits l) then None
  else match l with
       | [] => Some (float64 [])
       | _ :: _ =>
           if forallb is_int l then Some (int64 (map as_int l))
           else Some (float64 (map as_float l))
       end.

(** [a[k:]] and [a[:-k]]. *)
Definition slice_from (k : nat) (a : ndarray) : ndarray :=
  match a with
  | int64 l => int64 (skipn k l)
  | float64 l => float64 (skipn k l)
  end.

Definition slice_to_last (k : nat) (a : ndarray) : ndarray :=
  match a with
  | int64 l => int64 (firstn (length l - k) l)
  | float64 l => float64 (firstn (length l - k) l)
  end.

Fixpoint zip_with {A B C : Type} (f : A -> B -> C)
    (a : list A) (b : list B) : list C :=
  match a, b with
  | x :: a', y :: b' => f x y :: zip_with f a' b'
  | _, _ => []
  end.

Definition astype_float (a : ndarray) : list float :=
  match a with
  | int64 l => map of_Z l
  | float64 l => l
  end.

(** [a - b]: in int64 on two int64 arrays, in binary64 otherwise. *)
Definition subtract (a b : ndarray) : ndarray :=
  match a, b with
  | int64 x, int64 y => int64 (zip_with (fun u v => wrap (u - v)) x y)
  | _, _ =>
      float64 (zip_with PrimFloat.sub (astype_float a) (astype_float b))
  end.

(** [a / b]: always in binary64; int64 operands are converted first.  A
    zero divisor gives an infinity or a nan (and a warning), never an
    exception. *)
Definition true_divide (a b : ndarray) : list float :=
  zip_with PrimFloat.div (astype_float a) (astype_float b).

(** [add.reduce] on binary64: numpy's pairwise summation.  Fewer than 8
    elements are added left to right; up to 128 are added in 8 interleaved
    accumulators; longer arrays are split in two. *)
Definition sum_lt8 (a : list float) : float :=
  fold_left PrimFloat.add a neg_zero.

Fixpoint sum_lanes (r : list float) (l : list float) {struct l} : list float :=
  match l with
  | a0 :: a1 :: a2 :: a3 :: a4 :: a5 :: a6 :: a7 :: l' =>
      sum_lanes (zip_with PrimFloat.add r [a0; a1; a2; a3; a4; a5; a6; a7]) l'
  | _ => r
  end.

Definition sum_block (a : list float) : float :=
  match a with
  | r0 :: r1 :: r2 :: r3 :: r4 :: r5 :: r6 :: r7 :: rest =>
      let n := length a in
      let body := firstn (n - n mod 8 - 8) rest in
      let tail := skipn (n - n mod 8 - 8) rest in
      match sum_lanes [r0; r1; r2; r3; r4; r5; r6; r7] body with
      | [s0; s1; s2; s3; s4; s5; s6; s7] =>
          fold_left PrimFloat.add tail
                    (((s0 + s1) + (s2 + s3)) + ((s4 + s5) + (s6 + s7)))
      | _ => sum_lt8 a
      end
  | _ => sum_lt8 a
  end.

Fixpoint pairwise_sum (fuel : nat) (a : list float) : float :=
  let n := length a in
  if (n <? 8)%nat then sum_lt8 a
  else if (n <=? 128)%nat then sum_block a
  else match fuel with
       | O => sum_block a
       | S fuel' =>
           let n2 := (n / 2 - (n / 2) mod 8)%nat in
           pairwise_sum fuel' (firstn n2 a) + pairwise_sum fuel' (skipn n2 a)
       end.

(** [np.sum]: the reduction starts from the identity [0.0], to which the
    pairwise sum of the whole array is added. *)
Definition sum (a : list float) : float :=
  0 + pairwise_sum (length a) a.

(** The number of elements, as the binary64 divisor. *)
Definition count (a : list float) : float := of_nat (length a).

(** [np.mean]: the sum over the number of elements; nan on an empty
    array. *)
Definition mean (a : list float) : float := sum a / count a.

(** [np.std] with its default [ddof = 0]. *)
Definition std (a : list float) : float :=
  let rcount := count a in
  let arrmean := sum a / rcount in
  let x := map (fun v => v - arrmean) a in
  let x := map (fun v => v * v) x in
  let ret := sum x / rcount in
  PrimFloat.sqrt ret.

(** [np.sort]: increasing, nan last; [np.median] only needs the middle
    positions in place ([np.partition]), which hold the same values. *)
Definition before (x y : float) : bool := (x <=? y) || is_nan y.

Fixpoint insert (x : float) (l : list float) : list float :=
  match l with
  | [] => [x]
  | y :: l' => if before x y then x :: l else y :: insert x l'
  end.

Fixpoint sort (l : list float) : list float :=
  match l with
  | [] => []
  | x :: l' => insert x (sort l')
  end.

Definition slice (a b : nat) (l : list float) : list float :=
  firstn (b - a) (skipn a l).

(** [np.median]: the mean of the middle element, or of the two middle
    elements; nan when the array holds a nan. *)
Definition median (a : list float) : float :=
  let part := sort a in
  let index := Nat.div (length part) 2 in
  let rout :=
    if Nat.odd (length part)
    then mean (slice index (index + 1) part)
    else mean (slice (index - 1) (index + 1) part) in
  if is_nan (last part 0) then nan else rout.

Definition zero_size (op : string) : exception :=
  ValueError
    ("zero-size array to reduction operation " ++ op
     ++ " which has no identity")%string.

(** [np.minimum] and [np.maximum]: a nan operand wins. *)
Definition minimum (x y : float) : float :=
  if is_nan x then x
  else if is_nan y then y
  else if (y <? x) then y else x.

Definition maximum (x y : float) : float :=
  if is_nan x then x
  else if is_nan y then y
  else if (x <? y) then y else x.

Definition min (a : list float) : outcome float :=
  match a with
  | [] => Raise (zero_size "minimum")
  | x :: a' => Return (fold_left minimum a' x)
  end.

Definition max (a : list float) : outcome float :=
  match a with
  | [] => Raise (zero_size "maximum")
  | x :: a' => Return (fold_left maximum a' x)
  end.

End np.

(** The outcome is [None] where [np.array] is. *)
Definition historical_growth_analysis
    (historical_data : list number) (periods : option Z)
    : option (outcome (dict float)) :=
  let periods := default 5%Z periods in
  match np.array historical_data with
  | None => None
  | Some data =>
      let growth_rates :=
        np.true_divide
          (np.subtract (np.slice_from 1 data) (np.slice_to_last 1 data))
          (np.slice_to_last 1 data) in
      Some (let mean_growth := np.mean growth_rates in
            let median_growth := np.median growth_rates in
            let std_dev := np.std growth_rates in
            min_growth <- np.min growth_rates ;;
            max_growth <- np.max growth_rates ;;
            Return [ ("mean_growth", mean_growth);
                     ("median_growth", median_growth);
                     ("std_dev", std_dev);
                     ("min_growth", min_growth);
                     ("max_growth", max_growth) ]%string)
  end.

(** *** The formulas of the specification, read in binary64 *)


(** The growth rates by index, on a float64 array and on an int64 array. *)
Definition growth_rate (data : list float) (i : nat) : float :=
  (nth (S i) data 0 - nth i data 0) / nth i data 0.

Definition growth_sequence (data : list float) : list float :=
  map (growth_rate data) (seq 0 (length data - 1)).

Definition growth_rate_int64 (data : list Z) (i : nat) : float :=
  of_Z (np.wrap (nth (S i) data 0 - nth i data 0)%Z) / of_Z (nth i data 0%Z).

Definition growth_sequence_int64 (data : list Z) : list float :=
  map (growth_rate_int64 data) (seq 0 (length data - 1)).

(** The mapping the analysis returns. *)
Definition statistics
    (mean_growth median_growth std_dev min_growth max_growth : float)
    : dict float :=
  [ ("mean_growth", mean_growth);
    ("median_growth", median_growth);
    ("std_dev", std_dev);
    ("min_growth", min_growth);
    ("max_growth", max_growth) ]%string.

Definition not_nan (x : float) : Prop := is_nan x = false.

(** An infinity or a nan, on the specification of floats. *)
Definition SFnonfinite (a : spec_float) : bool :=
  match a with
  | S754_infinity _ | S754_nan => true
  | _ => false
  end.

Definition leq (x y : float) : Prop := (x <=? y) = true.

(** The middle element, or the two middle elements, of a sorted array. *)
Definition middle (s : list float) : list float :=
  let n := length s in
  if Nat.odd n then [nth (n / 2) s 0]
  else [nth (n / 2 - 1) s 0; nth (n / 2) s 0].

(** What the specification says of the five statistics, as far as it
    holds of binary64 values: the mean and the standard deviation are
    numpy's rounded sums over [N]; the median is the mean of the middle of
    the sorted rates; the minimum and the maximum are rates, and the least
    and the greatest when no rate is nan. *)
Definition describes (g : list float)
    (mean_growth median_growth std_dev min_growth max_growth : float) : Prop :=
  mean_growth = np.sum g / np.count g
  /\ std_dev
     = PrimFloat.sqrt
         (np.sum (map (fun v => (v - mean_growth) * (v - mean_growth)) g)
          / np.count g)
  /\ In min_growth g /\ In max_growth g
  /\ (Forall not_nan g ->
      (forall x, In x g -> leq min_growth x /\ leq x max_growth)
      /\ exists s, Permutation g s /\ StronglySorted leq s
                   /\ median_growth = np.mean (middle s)).

(** *** Finite domains checked by evaluation *)













End Binary64.

(** * Properties *)

(** ** Properties that do not depend on rounding *)

(** C7, as the specification states it, fails: the value returned for the
    driver's example is [19/240 = 0.0791666...], which is not [0.0792]. *)
Lemma calculate_wacc_example_not_0792 :
  ~ (calculate_wacc 1000000 500000 0.10 0.05 0.25
     = Return (0.10 * (2 / 3) + 0.05 * 0.75 * (1 / 3))
     /\ 0.10 * (2 / 3) + 0.05 * 0.75 * (1 / 3) = 0.0792).
Proof.
  intros [_ H]. lra.
Qed.

(** C7, amended.  [calculate_wacc 1000000 500000 0.10 0.05 0.25] returns
    [0.10 * (2/3) + 0.05 * 0.75 * (1/3)]; that value is [19/240], which is
    [0.0792] rounded to four decimals. *)
Theorem calculate_wacc_example :
  calculate_wacc 1000000 500000 0.10 0.05 0.25
  = Return (0.10 * (2 / 3) + 0.05 * 0.75 * (1 / 3))
  /\ 0.10 * (2 / 3) + 0.05 * 0.75 * (1 / 3) = 19 / 240
  /\ Rabs (0.10 * (2 / 3) + 0.05 * 0.75 * (1 / 3) - 0.0792) < 0.00005.
Proof.
  split; [| split].
  - unfold calculate_wacc, truediv, bind.
    destruct (Req_dec_T (1000000 + 500000) 0) as [H0 | _]; [lra |].
    f_equal. lra.
  - lra.
  - apply Rabs_def1; lra.
Qed.

(** C5. [calculate_terminal_value] returns the Gordon growth value when
    the two rates differ and raises [ZeroDivisionError] when they are
    equal. *)
Theorem calculate_terminal_value_spec :
  forall final_cash_flow terminal_growth_rate discount_rate : R,
    (discount_rate <> terminal_growth_rate ->
     calculate_terminal_value final_cash_flow terminal_growth_rate
                              discount_rate
     = Return (final_cash_flow * (1 + terminal_growth_rate)
               / (discount_rate - terminal_growth_rate)))
    /\ (discount_rate = terminal_growth_rate ->
        calculate_terminal_value final_cash_flow terminal_growth_rate
                                 discount_rate
        = Raise ZeroDivisionError).
Proof.
  intros f g r.
  unfold calculate_terminal_value, truediv.
  destruct (Req_dec_T (r - g) 0) as [H0 | Hne]; split; intro H.
  - exfalso. apply H. lra.
  - reflexivity.
  - reflexivity.
  - exfalso. apply Hne. lra.
Qed.

Lemma calculate_terminal_value_spec_witness :
  (0.08 <> 0.03 /\
   calculate_terminal_value 100 0.03 0.08
   = Return (100 * (1 + 0.03) / (0.08 - 0.03)))
  /\ (0.03 = 0.03 /\
      calculate_terminal_value 100 0.03 0.03 = Raise ZeroDivisionError).
Proof.
  split; split.
  - lra.
  - apply (calculate_terminal_value_spec 100 0.03 0.08). lra.
  - reflexivity.
  - apply (calculate_terminal_value_spec 100 0.03 0.03). reflexivity.
Defined.

(** C3, as the specification states it, fails: on [[5]] the call does not
    fail with the insufficient-data error. *)
Lemma historical_growth_analysis_single_not_insufficient_data :
  ~ fails_with_insufficient_data (historical_growth_analysis [5] None).
Proof.
  unfold fails_with_insufficient_data. cbn. discriminate.
Qed.

(** C3, amended.  With fewer than two data points the growth-rate array is
    empty and the call fails with the [ValueError] that numpy's minimum
    reduction raises on a zero-size array. *)
Theorem historical_growth_analysis_too_short :
  forall (historical_data : list R) (periods : option Z),
    (length historical_data < 2)%nat ->
    historical_growth_analysis historical_data periods
    = Raise (ValueError
               "zero-size array to reduction operation minimum which has no identity").
Proof.
  intros data periods Hlen.
  destruct data as [| x [| y t]]; cbn in Hlen |- *; try reflexivity; lia.
Qed.

Lemma historical_growth_analysis_too_short_witness :
  historical_growth_analysis [5] None
  = Raise (ValueError
             "zero-size array to reduction operation minimum which has no identity").
Proof.
  apply (historical_growth_analysis_too_short [5] None). simpl. lia.
Defined.

(** C4. The result does not depend on [periods]. *)
Theorem historical_growth_analysis_periods_unused :
  forall (historical_data : list R) (p1 p2 : option Z),
    historical_growth_analysis historical_data p1
    = historical_growth_analysis historical_data p2.
Proof.
  intros data p1 p2. reflexivity.
Qed.

Lemma calculate_wacc_returns
    (equity_value debt_value cost_of_equity cost_of_debt tax_rate : R) :
  equity_value + debt_value <> 0 ->
  calculate_wacc equity_value debt_value cost_of_equity cost_of_debt tax_rate
  = Return (equity_value / (equity_value + debt_value) * cost_of_equity
            + debt_value / (equity_value + debt_value) * cost_of_debt
              * (1 - tax_rate)).
Proof.
  intro HT. unfold calculate_wacc, truediv, bind.
  destruct (Req_dec_T (equity_value + debt_value) 0); [contradiction |].
  reflexivity.
Qed.

(** X2. A firm financed by equity alone has the cost of equity as its
    WACC; a firm financed by debt alone has the after-tax cost of debt. *)
Theorem calculate_wacc_single_source :
  forall value cost_of_equity cost_of_debt tax_rate : R,
    value <> 0 ->
    calculate_wacc value 0 cost_of_equity cost_of_debt tax_rate
    = Return cost_of_equity
    /\ calculate_wacc 0 value cost_of_equity cost_of_debt tax_rate
       = Return (cost_of_debt * (1 - tax_rate)).
Proof.
  intros v ce cd t Hv. split.
  - rewrite calculate_wacc_returns by (intro H; apply Hv; lra).
    f_equal. field. intro H; apply Hv; lra.
  - rewrite calculate_wacc_returns by (intro H; apply Hv; lra).
    f_equal. field. intro H; apply Hv; lra.
Qed.

Lemma calculate_wacc_single_source_witness :
  calculate_wacc 1000000 0 0.10 0.05 0.25 = Return 0.10
  /\ calculate_wacc 0 1000000 0.10 0.05 0.25 = Return (0.05 * (1 - 0.25)).
Proof.
  apply (calculate_wacc_single_source 1000000 0.10 0.05 0.25). lra.
Defined.



(** X4. With a non-negative market risk premium the CAPM cost of equity
    does not decrease as beta grows, and it is the risk-free rate at
    beta zero. *)
Theorem calculate_cost_of_equity_monotone :
  forall risk_free_rate market_risk_premium beta1 beta2 : R,
    0 <= market_risk_premium ->
    beta1 <= beta2 ->
    calculate_cost_of_equity risk_free_rate beta1 market_risk_premium
    <= calculate_cost_of_equity risk_free_rate beta2 market_risk_premium
    /\ calculate_cost_of_equity risk_free_rate 0 market_risk_premium
       = risk_free_rate.
Proof.
  intros rf mrp b1 b2 Hm Hb. unfold calculate_cost_of_equity.
  split; [nra | ring].
Qed.

Lemma calculate_cost_of_equity_monotone_witness :
  calculate_cost_of_equity 0.03 0.8 0.06
  <= calculate_cost_of_equity 0.03 1.2 0.06
  /\ calculate_cost_of_equity 0.03 0 0.06 = 0.03.
Proof.
  apply (calculate_cost_of_equity_monotone 0.03 0.06 0.8 1.2); lra.
Defined.

(** * Properties of the binary64 program *)

Open Scope float_scope.

(** ** Comparisons of binary64 values *)


Lemma SFcompare_refl (a : spec_float) :
  a <> S754_nan -> SFcompare a a = Some Eq.
Proof.
  destruct a as [s | s | | s m e]; intro H; simpl.
  - reflexivity.
  - destruct s; reflexivity.
  - contradiction.
  - rewrite Z.compare_refl.
    change (Pos.compare_cont Eq m m) with (Pos.compare m m).
    rewrite Pos.compare_refl. destruct s; reflexivity.
Qed.

Lemma is_nan_spec (x : float) : is_nan x = true <-> Prim2SF x = S754_nan.
Proof.
  unfold is_nan. rewrite FloatAxioms.eqb_spec. unfold SFeqb.
  split.
  - intro H. destruct (Prim2SF x) eqn:E; try reflexivity; exfalso;
      rewrite SFcompare_refl in H by discriminate; discriminate.
  - intro H. rewrite H. reflexivity.
Qed.

Lemma not_nan_spec (x : float) :
  Binary64.not_nan x <-> Prim2SF x <> S754_nan.
Proof.
  unfold Binary64.not_nan. split.
  - intros H E. apply is_nan_spec in E. congruence.
  - intro H. destruct (is_nan x) eqn:E; [| reflexivity].
    apply is_nan_spec in E. contradiction.
Qed.

Ltac compare_cases :=
  repeat match goal with
  | |- context [Z.compare ?a ?b] => destruct (Z.compare_spec a b)
  | H : context [Z.compare ?a ?b] |- _ => destruct (Z.compare_spec a b)
  | |- context [Pos.compare_cont Eq ?a ?b] =>
      change (Pos.compare_cont Eq a b) with (Pos.compare a b);
      destruct (Pos.compare_spec a b)
  | H : context [Pos.compare_cont Eq ?a ?b] |- _ =>
      change (Pos.compare_cont Eq a b) with (Pos.compare a b) in H;
      destruct (Pos.compare_spec a b)
  end.

Ltac by_signs :=
  simpl; try discriminate; try reflexivity;
  repeat match goal with s : bool |- _ => destruct s end;
  simpl; try discriminate; try reflexivity;
  intros; compare_cases; simpl in *;
  try discriminate; try reflexivity; try lia.

Lemma SFleb_trans (a b c : spec_float) :
  SFleb a b = true -> SFleb b c = true -> SFleb a c = true.
Proof.
  unfold SFleb.
  destruct a as [sa | sa | | sa ma ea], b as [sb | sb | | sb mb eb],
           c as [sc | sc | | sc mc ec]; by_signs.
Qed.

Lemma SFleb_total (a b : spec_float) :
  a <> S754_nan -> b <> S754_nan -> SFltb b a = false -> SFleb a b = true.
Proof.
  unfold SFleb, SFltb.
  destruct a as [sa | sa | | sa ma ea], b as [sb | sb | | sb mb eb];
    intros Ha Hb; try contradiction; clear Ha Hb; by_signs.
Qed.

Lemma SFleb_connex (a b : spec_float) :
  a <> S754_nan -> b <> S754_nan -> SFleb a b = false -> SFleb b a = true.
Proof.
  unfold SFleb.
  destruct a as [sa | sa | | sa ma ea], b as [sb | sb | | sb mb eb];
    intros Ha Hb; try contradiction; clear Ha Hb; by_signs.
Qed.

Lemma leb_trans (x y z : float) :
  Binary64.leq x y -> Binary64.leq y z -> Binary64.leq x z.
Proof.
  unfold Binary64.leq. rewrite !FloatAxioms.leb_spec. apply SFleb_trans.
Qed.

Lemma leb_refl (x : float) : Binary64.not_nan x -> Binary64.leq x x.
Proof.
  intro H. apply not_nan_spec in H.
  unfold Binary64.leq. rewrite FloatAxioms.leb_spec. unfold SFleb.
  rewrite SFcompare_refl by exact H. reflexivity.
Qed.

Lemma leb_total (x y : float) :
  Binary64.not_nan x -> Binary64.not_nan y ->
  (y <? x) = false -> Binary64.leq x y.
Proof.
  intros Hx Hy. apply not_nan_spec in Hx, Hy.
  unfold Binary64.leq.
  rewrite FloatAxioms.ltb_spec, FloatAxioms.leb_spec.
  apply SFleb_total; assumption.
Qed.

Lemma leb_connex (x y : float) :
  Binary64.not_nan x -> Binary64.not_nan y ->
  (x <=? y) = false -> Binary64.leq y x.
Proof.
  intros Hx Hy. apply not_nan_spec in Hx, Hy.
  unfold Binary64.leq. rewrite !FloatAxioms.leb_spec.
  apply SFleb_connex; assumption.
Qed.

Lemma ltb_leb (x y : float) : (x <? y) = true -> Binary64.leq x y.
Proof.
  unfold Binary64.leq.
  rewrite FloatAxioms.ltb_spec, FloatAxioms.leb_spec.
  unfold SFleb, SFltb.
  destruct (SFcompare (Prim2SF x) (Prim2SF y)) as [[| |] |];
    try discriminate; reflexivity.
Qed.


(** ** Infinities, nan and zeros *)

Lemma is_finite_spec (x : float) :
  is_finite x = negb (Binary64.SFnonfinite (Prim2SF x)).
Proof.
  unfold is_finite, is_nan, is_infinity.
  rewrite !FloatAxioms.eqb_spec, abs_spec.
  change (Prim2SF infinity) with (S754_infinity false).
  unfold SFeqb.
  destruct (Prim2SF x) as [s | s | | s m e]; simpl.
  - reflexivity.
  - destruct s; reflexivity.
  - reflexivity.
  - rewrite Z.compare_refl.
    change (Pos.compare_cont Eq m m) with (Pos.compare m m).
    rewrite Pos.compare_refl. destruct s; reflexivity.
Qed.

Lemma nonfinite_spec (x : float) :
  is_finite x = false <-> Binary64.SFnonfinite (Prim2SF x) = true.
Proof.
  rewrite is_finite_spec.
  destruct (Binary64.SFnonfinite (Prim2SF x)); simpl; split; congruence.
Qed.

Lemma eqb_zero_spec (x : float) :
  (x =? 0) = true <-> exists s, Prim2SF x = S754_zero s.
Proof.
  rewrite FloatAxioms.eqb_spec.
  change (Prim2SF 0) with (S754_zero false). unfold SFeqb.
  destruct (Prim2SF x) as [s | s | | s m e]; simpl.
  - split; [intros _; exists s; reflexivity | reflexivity].
  - destruct s; split; try discriminate; intros [s' H]; discriminate.
  - split; try discriminate; intros [s' H]; discriminate.
  - destruct s; split; try discriminate; intros [s' H]; discriminate.
Qed.

Lemma add_nonfinite_l (x y : float) :
  is_finite x = false -> is_finite (x + y) = false.
Proof.
  rewrite !nonfinite_spec, add_spec. unfold SF64add, SFadd.
  destruct (Prim2SF x) as [sx | sx | | sx mx ex]; try discriminate;
    destruct (Prim2SF y) as [sy | sy | | sy my ey]; intros _;
    try reflexivity; destruct sx, sy; reflexivity.
Qed.

Lemma add_nonfinite_r (x y : float) :
  is_finite y = false -> is_finite (x + y) = false.
Proof.
  rewrite !nonfinite_spec, add_spec. unfold SF64add, SFadd.
  destruct (Prim2SF y) as [sy | sy | | sy my ey]; try discriminate;
    destruct (Prim2SF x) as [sx | sx | | sx mx ex]; intros _;
    try reflexivity; destruct sx, sy; reflexivity.
Qed.

Lemma div_nonfinite (x y : float) :
  is_finite x = false -> is_finite (x / y) = false.
Proof.
  rewrite !nonfinite_spec, div_spec. unfold SF64div, SFdiv.
  destruct (Prim2SF x) as [sx | sx | | sx mx ex]; try discriminate;
    destruct (Prim2SF y) as [sy | sy | | sy my ey]; intros _; reflexivity.
Qed.

Lemma div_by_zero_nonfinite (x y : float) :
  (y =? 0) = true -> is_finite (x / y) = false.
Proof.
  intro H. apply eqb_zero_spec in H. destruct H as [s Hy].
  rewrite nonfinite_spec, div_spec, Hy. unfold SF64div, SFdiv.
  destruct (Prim2SF x) as [sx | sx | | sx mx ex]; reflexivity.
Qed.

Lemma mul_zero_r (x y : float) :
  is_finite x = true -> (y =? 0) = true -> (x * y =? 0) = true.
Proof.
  intros Hx Hy. apply eqb_zero_spec in Hy. destruct Hy as [s Hy].
  rewrite is_finite_spec in Hx.
  apply eqb_zero_spec. rewrite mul_spec, Hy. unfold SF64mul, SFmul.
  destruct (Prim2SF x) as [sx | sx | | sx mx ex]; try discriminate;
    eexists; reflexivity.
Qed.

Lemma mul_zero_l (x y : float) :
  (x =? 0) = true -> is_finite y = true -> (x * y =? 0) = true.
Proof.
  intros Hx Hy. apply eqb_zero_spec in Hx. destruct Hx as [s Hx].
  rewrite is_finite_spec in Hy.
  apply eqb_zero_spec. rewrite mul_spec, Hx. unfold SF64mul, SFmul.
  destruct (Prim2SF y) as [sy | sy | | sy my ey]; try discriminate;
    eexists; reflexivity.
Qed.

Lemma sub_diag_zero (x : float) :
  is_finite x = true -> (x - x =? 0) = true.
Proof.
  intro Hx. rewrite is_finite_spec in Hx.
  apply eqb_zero_spec. rewrite sub_spec. unfold SF64sub, SFsub.
  destruct (Prim2SF x) as [s | s | | s m e]; try discriminate.
  - destruct s; eexists; reflexivity.
  - cbv zeta. rewrite Z.sub_diag. eexists. reflexivity.
Qed.

(** ** calculate_wacc on binary64 *)




















(** ** calculate_terminal_growth_gdp on binary64 *)

(** C8. [calculate_terminal_growth_gdp] returns
    [(real_gdp_growth + inflation_rate) * adjustment_factor], with
    [adjustment_factor = 1.0] when omitted; [(0.02, 0.015)] gives [0.035]
    and, with the factor [2.0], twice as much, [0.07]. *)
Theorem calculate_terminal_growth_gdp_binary64 :
  (forall real_gdp_growth inflation_rate adjustment_factor,
      Binary64.calculate_terminal_growth_gdp real_gdp_growth inflation_rate
                                             (Some adjustment_factor)
      = (real_gdp_growth + inflation_rate) * adjustment_factor)
  /\ (forall real_gdp_growth inflation_rate,
         Binary64.calculate_terminal_growth_gdp real_gdp_growth
                                                inflation_rate None
         = Binary64.calculate_terminal_growth_gdp real_gdp_growth
                                                  inflation_rate (Some 1))
  /\ Binary64.calculate_terminal_growth_gdp 0.02 0.015 None = 0.035
  /\ Binary64.calculate_terminal_growth_gdp 0.02 0.015 (Some 2) = 0.07
  /\ Binary64.calculate_terminal_growth_gdp 0.02 0.015 (Some 2)
     = 2 * Binary64.calculate_terminal_growth_gdp 0.02 0.015 None.
Proof.
  repeat split; vm_compute; reflexivity.
Qed.


(** ** numpy on binary64: arrays and growth rates *)

Lemma array_floats (l : list float) :
  Binary64.np.array (map Binary64.PyFloat l) = Some (Binary64.np.float64 l).
Proof.
  unfold Binary64.np.array.
  assert (Hfits : forallb Binary64.np.fits (map Binary64.PyFloat l) = true).
  { induction l as [| x l IH]; [reflexivity | exact IH]. }
  rewrite Hfits. simpl negb. cbv iota.
  destruct l as [| x l]; [reflexivity |].
  cbn [map forallb Binary64.np.is_int andb].
  do 2 f_equal.
  change (Binary64.np.as_float (Binary64.PyFloat x)
            :: map Binary64.np.as_float (map Binary64.PyFloat l))
    with (x :: map Binary64.np.as_float (map Binary64.PyFloat l)).
  f_equal. rewrite map_map. apply map_id.
Qed.

Lemma array_ints (l : list Z) :
  l <> [] ->
  forallb Binary64.np.in_int64 l = true ->
  Binary64.np.array (map Binary64.PyInt l) = Some (Binary64.np.int64 l).
Proof.
  intros Hne Hrange. unfold Binary64.np.array.
  assert (Hfits : forallb Binary64.np.fits (map Binary64.PyInt l) = true).
  { clear Hne. induction l as [| z l IH]; [reflexivity |].
    cbn [map forallb Binary64.np.fits] in *.
    apply andb_prop in Hrange. destruct Hrange as [Hz Hl].
    rewrite Hz. apply IH. exact Hl. }
  assert (Hint : forallb Binary64.np.is_int (map Binary64.PyInt l) = true).
  { clear. induction l as [| z l IH]; [reflexivity | exact IH]. }
  rewrite Hfits, Hint. simpl negb. cbv iota.
  destruct l as [| z l]; [contradiction |].
  cbn [map]. do 2 f_equal.
  change (Binary64.np.as_int (Binary64.PyInt z)
            :: map Binary64.np.as_int (map Binary64.PyInt l))
    with (z :: map Binary64.np.as_int (map Binary64.PyInt l)).
  f_equal. rewrite map_map. apply map_id.
Qed.

Lemma zip_with_pairs {A B : Type} (f : A -> A -> B) (d : A) (rest : list A) :
  forall x,
    Binary64.np.zip_with f rest (firstn (length rest) (x :: rest))
    = map (fun i => f (nth (S i) (x :: rest) d) (nth i (x :: rest) d))
          (seq 0 (length rest)).
Proof.
  induction rest as [| y t IH]; intro x.
  - reflexivity.
  - cbn [length firstn Binary64.np.zip_with seq map nth].
    f_equal. rewrite IH, <- seq_shift, map_map. reflexivity.
Qed.

Lemma zip_with_divide_subtract (a : list float) :
  forall b,
    Binary64.np.zip_with PrimFloat.div
      (Binary64.np.zip_with PrimFloat.sub a b) b
    = Binary64.np.zip_with (fun u v => (u - v) / v) a b.
Proof.
  induction a as [| x a IH]; intros [| y b]; try reflexivity.
  cbn [Binary64.np.zip_with]. rewrite IH. reflexivity.
Qed.

Lemma zip_with_divide_subtract_int64 (a : list Z) :
  forall b,
    Binary64.np.zip_with PrimFloat.div
      (map Binary64.of_Z
           (Binary64.np.zip_with (fun u v => Binary64.np.wrap (u - v)) a b))
      (map Binary64.of_Z b)
    = Binary64.np.zip_with
        (fun u v => Binary64.of_Z (Binary64.np.wrap (u - v)) / Binary64.of_Z v)
        a b.
Proof.
  induction a as [| x a IH]; intros [| y b]; try reflexivity.
  cbn [Binary64.np.zip_with map]. rewrite IH. reflexivity.
Qed.

(** The slices [data[1:]] and [data[:-1]] pair every element with its
    successor. *)
Lemma growth_rates_float64 (data : list float) :
  Binary64.np.true_divide
    (Binary64.np.subtract
       (Binary64.np.slice_from 1 (Binary64.np.float64 data))
       (Binary64.np.slice_to_last 1 (Binary64.np.float64 data)))
    (Binary64.np.slice_to_last 1 (Binary64.np.float64 data))
  = Binary64.growth_sequence data.
Proof.
  unfold Binary64.np.true_divide, Binary64.np.subtract,
    Binary64.np.slice_from, Binary64.np.slice_to_last,
    Binary64.np.astype_float, Binary64.growth_sequence.
  rewrite zip_with_divide_subtract.
  destruct data as [| x rest]; [reflexivity |].
  cbn [length skipn].
  replace (S (length rest) - 1)%nat with (length rest) by lia.
  apply (zip_with_pairs (fun u v => (u - v) / v) 0).
Qed.

Lemma growth_rates_int64 (data : list Z) :
  Binary64.np.true_divide
    (Binary64.np.subtract
       (Binary64.np.slice_from 1 (Binary64.np.int64 data))
       (Binary64.np.slice_to_last 1 (Binary64.np.int64 data)))
    (Binary64.np.slice_to_last 1 (Binary64.np.int64 data))
  = Binary64.growth_sequence_int64 data.
Proof.
  unfold Binary64.np.true_divide, Binary64.np.subtract,
    Binary64.np.slice_from, Binary64.np.slice_to_last,
    Binary64.np.astype_float, Binary64.growth_sequence_int64.
  rewrite zip_with_divide_subtract_int64.
  destruct data as [| x rest]; [reflexivity |].
  cbn [length skipn].
  replace (S (length rest) - 1)%nat with (length rest) by lia.
  apply (zip_with_pairs
           (fun u v => Binary64.of_Z (Binary64.np.wrap (u - v))
                       / Binary64.of_Z v) 0%Z).
Qed.


(** ** numpy on binary64: the reductions *)

Lemma minimum_cases (x y : float) :
  Binary64.np.minimum x y = x \/ Binary64.np.minimum x y = y.
Proof.
  unfold Binary64.np.minimum.
  destruct (is_nan x); [left; reflexivity |].
  destruct (is_nan y); [right; reflexivity |].
  destruct (y <? x); [right | left]; reflexivity.
Qed.

Lemma maximum_cases (x y : float) :
  Binary64.np.maximum x y = x \/ Binary64.np.maximum x y = y.
Proof.
  unfold Binary64.np.maximum.
  destruct (is_nan x); [left; reflexivity |].
  destruct (is_nan y); [right; reflexivity |].
  destruct (x <? y); [right | left]; reflexivity.
Qed.

Lemma fold_minimum_In (l : list float) :
  forall x, In (fold_left Binary64.np.minimum l x) (x :: l).
Proof.
  induction l as [| y l IH]; intro x; cbn [fold_left].
  - left. reflexivity.
  - destruct (IH (Binary64.np.minimum x y)) as [H | H].
    + destruct (minimum_cases x y) as [E | E].
      * left. rewrite <- H. symmetry. exact E.
      * right. left. rewrite <- H. symmetry. exact E.
    + right. right. exact H.
Qed.

Lemma fold_maximum_In (l : list float) :
  forall x, In (fold_left Binary64.np.maximum l x) (x :: l).
Proof.
  induction l as [| y l IH]; intro x; cbn [fold_left].
  - left. reflexivity.
  - destruct (IH (Binary64.np.maximum x y)) as [H | H].
    + destruct (maximum_cases x y) as [E | E].
      * left. rewrite <- H. symmetry. exact E.
      * right. left. rewrite <- H. symmetry. exact E.
    + right. right. exact H.
Qed.

Lemma minimum_lower (x y : float) :
  Binary64.not_nan x -> Binary64.not_nan y ->
  Binary64.not_nan (Binary64.np.minimum x y)
  /\ Binary64.leq (Binary64.np.minimum x y) x
  /\ Binary64.leq (Binary64.np.minimum x y) y.
Proof.
  intros Hx Hy. unfold Binary64.np.minimum.
  rewrite Hx, Hy.
  destruct (y <? x) eqn:E.
  - split; [exact Hy |]. split; [apply ltb_leb; exact E | apply leb_refl; exact Hy].
  - split; [exact Hx |]. split; [apply leb_refl; exact Hx |].
    apply leb_total; assumption.
Qed.

Lemma maximum_upper (x y : float) :
  Binary64.not_nan x -> Binary64.not_nan y ->
  Binary64.not_nan (Binary64.np.maximum x y)
  /\ Binary64.leq x (Binary64.np.maximum x y)
  /\ Binary64.leq y (Binary64.np.maximum x y).
Proof.
  intros Hx Hy. unfold Binary64.np.maximum.
  rewrite Hx, Hy.
  destruct (x <? y) eqn:E.
  - split; [exact Hy |]. split; [apply ltb_leb; exact E | apply leb_refl; exact Hy].
  - split; [exact Hx |]. split; [apply leb_refl; exact Hx |].
    apply leb_total; assumption.
Qed.

Lemma fold_minimum_lower (l : list float) :
  forall x,
    Binary64.not_nan x -> Forall Binary64.not_nan l ->
    forall y, In y (x :: l) ->
              Binary64.leq (fold_left Binary64.np.minimum l x) y.
Proof.
  induction l as [| z l IH]; intros x Hx Hl y Hy; cbn [fold_left].
  - destruct Hy as [Hy | []]. subst y. apply leb_refl. exact Hx.
  - inversion Hl as [| ? ? Hz Hl']; subst.
    destruct (minimum_lower x z Hx Hz) as [Hm [Hmx Hmz]].
    assert (Hfold : Binary64.leq
                      (fold_left Binary64.np.minimum l
                                 (Binary64.np.minimum x z))
                      (Binary64.np.minimum x z)).
    { apply IH; [exact Hm | exact Hl' | left; reflexivity]. }
    destruct Hy as [Hy | [Hy | Hy]].
    + subst y. apply (leb_trans _ _ _ Hfold Hmx).
    + subst y. apply (leb_trans _ _ _ Hfold Hmz).
    + apply IH; [exact Hm | exact Hl' | right; exact Hy].
Qed.

Lemma fold_maximum_upper (l : list float) :
  forall x,
    Binary64.not_nan x -> Forall Binary64.not_nan l ->
    forall y, In y (x :: l) ->
              Binary64.leq y (fold_left Binary64.np.maximum l x).
Proof.
  induction l as [| z l IH]; intros x Hx Hl y Hy; cbn [fold_left].
  - destruct Hy as [Hy | []]. subst y. apply leb_refl. exact Hx.
  - inversion Hl as [| ? ? Hz Hl']; subst.
    destruct (maximum_upper x z Hx Hz) as [Hm [Hmx Hmz]].
    assert (Hfold : Binary64.leq
                      (Binary64.np.maximum x z)
                      (fold_left Binary64.np.maximum l
                                 (Binary64.np.maximum x z))).
    { apply IH; [exact Hm | exact Hl' | left; reflexivity]. }
    destruct Hy as [Hy | [Hy | Hy]].
    + subst y. apply (leb_trans _ _ _ Hmx Hfold).
    + subst y. apply (leb_trans _ _ _ Hmz Hfold).
    + apply IH; [exact Hm | exact Hl' | right; exact Hy].
Qed.


Lemma insert_float_perm (x : float) (l : list float) :
  Permutation (x :: l) (Binary64.np.insert x l).
Proof.
  induction l as [| y l IH]; cbn [Binary64.np.insert].
  - apply Permutation_refl.
  - destruct (Binary64.np.before x y).
    + apply Permutation_refl.
    + apply perm_trans with (y :: x :: l).
      * apply perm_swap.
      * apply perm_skip. exact IH.
Qed.

Lemma sort_float_perm (l : list float) : Permutation l (Binary64.np.sort l).
Proof.
  induction l as [| x l IH]; cbn [Binary64.np.sort].
  - apply perm_nil.
  - apply perm_trans with (x :: Binary64.np.sort l).
    + apply perm_skip. exact IH.
    + apply insert_float_perm.
Qed.

Lemma insert_float_sorted (x : float) (l : list float) :
  Binary64.not_nan x -> Forall Binary64.not_nan l ->
  StronglySorted Binary64.leq l ->
  StronglySorted Binary64.leq (Binary64.np.insert x l).
Proof.
  intros Hx Hl Hs. induction Hs as [| y l Hs IH Hy]; cbn [Binary64.np.insert].
  - constructor; constructor.
  - inversion Hl as [| ? ? Hny Hl']; subst.
    unfold Binary64.np.before. rewrite Hny, orb_false_r.
    destruct (x <=? y) eqn:E.
    + constructor.
      * constructor; assumption.
      * constructor; [exact E |].
        eapply Forall_impl; [| exact Hy].
        intros z Hz. apply (leb_trans x y z E Hz).
    + constructor; [apply IH; exact Hl' |].
      apply (Permutation_Forall (insert_float_perm x l)).
      constructor; [| exact Hy].
      apply leb_connex; assumption.
Qed.

Lemma sort_float_sorted (l : list float) :
  Forall Binary64.not_nan l ->
  StronglySorted Binary64.leq (Binary64.np.sort l).
Proof.
  induction l as [| x l IH]; intro Hl; cbn [Binary64.np.sort].
  - constructor.
  - inversion Hl as [| ? ? Hx Hl']; subst.
    apply insert_float_sorted; [exact Hx | | apply IH; exact Hl'].
    apply (Permutation_Forall (sort_float_perm l)). exact Hl'.
Qed.

Lemma skipn_nth_float (l : list float) :
  forall a, (a < length l)%nat -> skipn a l = nth a l 0 :: skipn (S a) l.
Proof.
  induction l as [| x l IH]; intros a Ha; simpl in Ha.
  - lia.
  - destruct a as [| a]; [reflexivity |].
    simpl. apply IH. lia.
Qed.

Lemma odd_half_lt (n : nat) : Nat.odd n = true -> (n / 2 < n)%nat.
Proof.
  intro Hodd. destruct n as [| n]; [discriminate |].
  apply Nat.div_lt; lia.
Qed.

Lemma even_half_bounds (n : nat) :
  Nat.odd n = false -> (0 < n)%nat -> (1 <= n / 2 /\ n / 2 < n)%nat.
Proof.
  intros Hodd Hpos.
  destruct n as [| [| n]]; [lia | discriminate |].
  split.
  - change (S (S n)) with (1 * 2 + n)%nat.
    rewrite Nat.div_add_l by lia. lia.
  - apply Nat.div_lt; lia.
Qed.

Lemma last_In (l : list float) : l <> [] -> In (last l 0) l.
Proof.
  induction l as [| x l IH]; intro Hne; [contradiction |].
  destruct l as [| y l]; [left; reflexivity |].
  right. apply IH. discriminate.
Qed.

(** Without a nan the median is the mean of the middle of the sorted
    array. *)
Lemma median_middle_float (l : list float) :
  l <> [] -> Forall Binary64.not_nan l ->
  Binary64.np.median l
  = Binary64.np.mean (Binary64.middle (Binary64.np.sort l)).
Proof.
  intros Hne Hl.
  pose proof (sort_float_perm l) as Hperm.
  assert (Hlen : (0 < length (Binary64.np.sort l))%nat).
  { rewrite <- (Permutation_length Hperm).
    destruct l; [contradiction | simpl; lia]. }
  assert (Hlast : is_nan (last (Binary64.np.sort l) 0) = false).
  { assert (Hs : Forall Binary64.not_nan (Binary64.np.sort l))
      by (apply (Permutation_Forall Hperm); exact Hl).
    rewrite Forall_forall in Hs. apply Hs. apply last_In.
    intro E. rewrite E in Hlen. simpl in Hlen. lia. }
  unfold Binary64.np.median, Binary64.middle, Binary64.np.slice.
  cbv zeta. rewrite Hlast.
  set (part := Binary64.np.sort l) in *.
  destruct (Nat.odd (length part)) eqn:Hodd.
  - pose proof (odd_half_lt _ Hodd) as Hidx.
    replace (length part / 2 + 1 - length part / 2)%nat with 1%nat by lia.
    rewrite (skipn_nth_float part _ Hidx). reflexivity.
  - destruct (even_half_bounds _ Hodd Hlen) as [H1 Hidx].
    replace (length part / 2 + 1 - (length part / 2 - 1))%nat
      with 2%nat by lia.
    rewrite (skipn_nth_float part (length part / 2 - 1)) by lia.
    replace (S (length part / 2 - 1)) with (length part / 2)%nat by lia.
    rewrite (skipn_nth_float part _ Hidx). reflexivity.
Qed.

(** What the five reductions return on a non-empty array. *)
Lemma reductions_describe (g : list float) :
  g <> [] ->
  exists lo hi,
    Binary64.np.min g = Return lo
    /\ Binary64.np.max g = Return hi
    /\ Binary64.describes g (Binary64.np.mean g) (Binary64.np.median g)
                          (Binary64.np.std g) lo hi.
Proof.
  intro Hne. destruct g as [| x g]; [contradiction |].
  exists (fold_left Binary64.np.minimum g x),
         (fold_left Binary64.np.maximum g x).
  split; [reflexivity |]. split; [reflexivity |].
  unfold Binary64.describes.
  split; [reflexivity |].
  split.
  { unfold Binary64.np.std, Binary64.np.mean. cbv zeta.
    rewrite map_map. reflexivity. }
  split; [apply fold_minimum_In |].
  split; [apply fold_maximum_In |].
  intro Hnan. inversion Hnan as [| ? ? Hx Hg]; subst.
  split.
  - intros y Hy. split.
    + apply fold_minimum_lower; assumption.
    + apply fold_maximum_upper; assumption.
  - exists (Binary64.np.sort (x :: g)).
    split; [apply sort_float_perm |].
    split; [apply sort_float_sorted; exact Hnan |].
    apply median_middle_float; [discriminate | exact Hnan].
Qed.

Lemma growth_sequence_float_length (data : list float) :
  length (Binary64.growth_sequence data) = (length data - 1)%nat.
Proof.
  unfold Binary64.growth_sequence. rewrite length_map, length_seq.
  reflexivity.
Qed.

Lemma growth_sequence_int64_length (data : list Z) :
  length (Binary64.growth_sequence_int64 data) = (length data - 1)%nat.
Proof.
  unfold Binary64.growth_sequence_int64. rewrite length_map, length_seq.
  reflexivity.
Qed.

Lemma nonempty_of_length {A : Type} (l : list A) :
  (0 < length l)%nat -> l <> [].
Proof.
  intros H E. rewrite E in H. simpl in H. lia.
Qed.

(** On a list of at least two floats the call returns the statistics of
    the growth rates. *)
Lemma historical_growth_analysis_float64
    (data : list float) (periods : option Z) :
  (2 <= length data)%nat ->
  exists mean_growth median_growth std_dev min_growth max_growth,
    Binary64.historical_growth_analysis (map Binary64.PyFloat data) periods
    = Some (Return (Binary64.statistics mean_growth median_growth std_dev
                                        min_growth max_growth))
    /\ Binary64.describes (Binary64.growth_sequence data)
                          mean_growth median_growth std_dev
                          min_growth max_growth.
Proof.
  intro Hlen.
  assert (Hne : Binary64.growth_sequence data <> []).
  { apply nonempty_of_length. rewrite growth_sequence_float_length. lia. }
  destruct (reductions_describe _ Hne) as [lo [hi [Hlo [Hhi Hd]]]].
  exists (Binary64.np.mean (Binary64.growth_sequence data)),
         (Binary64.np.median (Binary64.growth_sequence data)),
         (Binary64.np.std (Binary64.growth_sequence data)), lo, hi.
  split; [| exact Hd].
  unfold Binary64.historical_growth_analysis.
  rewrite array_floats. cbv zeta.
  rewrite growth_rates_float64, Hlo, Hhi. reflexivity.
Qed.

(** On a list of at least two ints of the int64 range the call returns
    the statistics of the growth rates computed from the wrapped
    differences. *)
Lemma historical_growth_analysis_int64
    (data : list Z) (periods : option Z) :
  (2 <= length data)%nat ->
  forallb Binary64.np.in_int64 data = true ->
  exists mean_growth median_growth std_dev min_growth max_growth,
    Binary64.historical_growth_analysis (map Binary64.PyInt data) periods
    = Some (Return (Binary64.statistics mean_growth median_growth std_dev
                                        min_growth max_growth))
    /\ Binary64.describes (Binary64.growth_sequence_int64 data)
                          mean_growth median_growth std_dev
                          min_growth max_growth.
Proof.
  intros Hlen Hrange.
  assert (Hne : Binary64.growth_sequence_int64 data <> []).
  { apply nonempty_of_length. rewrite growth_sequence_int64_length. lia. }
  destruct (reductions_describe _ Hne) as [lo [hi [Hlo [Hhi Hd]]]].
  exists (Binary64.np.mean (Binary64.growth_sequence_int64 data)),
         (Binary64.np.median (Binary64.growth_sequence_int64 data)),
         (Binary64.np.std (Binary64.growth_sequence_int64 data)), lo, hi.
  split; [| exact Hd].
  unfold Binary64.historical_growth_analysis.
  rewrite array_ints;
    [| apply nonempty_of_length; lia | exact Hrange].
  cbv zeta.
  rewrite growth_rates_int64, Hlo, Hhi. reflexivity.
Qed.


(** ** historical_growth_analysis on binary64 *)
















(** ** An infinity or a nan among the terms of a numpy sum *)

Lemma fold_add_nonfinite_acc (l : list float) :
  forall acc,
    is_finite acc = false ->
    is_finite (fold_left PrimFloat.add l acc) = false.
Proof.
  induction l as [| y l IH]; intros acc H; cbn [fold_left].
  - exact H.
  - apply IH. apply add_nonfinite_l. exact H.
Qed.

Lemma fold_add_nonfinite_In (l : list float) (x : float) :
  In x l -> is_finite x = false ->
  forall acc, is_finite (fold_left PrimFloat.add l acc) = false.
Proof.
  induction l as [| y l IH]; intros Hin Hx acc; [contradiction |].
  cbn [fold_left]. destruct Hin as [Hin | Hin].
  - subst y. apply fold_add_nonfinite_acc. apply add_nonfinite_r. exact Hx.
  - apply IH; assumption.
Qed.

Lemma sum_lt8_nonfinite (a : list float) (x : float) :
  In x a -> is_finite x = false ->
  is_finite (Binary64.np.sum_lt8 a) = false.
Proof.
  intros Hin Hx. unfold Binary64.np.sum_lt8.
  apply (fold_add_nonfinite_In a x Hin Hx).
Qed.

(** The eight accumulators: one that is not finite stays so, and every
    term of a body of [8 k] terms reaches one. *)
Lemma zip_add_nonfinite_lane (r chunk : list float) :
  length r = length chunk ->
  Exists (fun v => is_finite v = false) r ->
  Exists (fun v => is_finite v = false)
         (Binary64.np.zip_with PrimFloat.add r chunk).
Proof.
  revert chunk. induction r as [| q r IH]; intros [| c chunk] Hlen Hex;
    try discriminate; inversion Hex; subst; cbn [Binary64.np.zip_with].
  - left. apply add_nonfinite_l. assumption.
  - right. apply IH; [simpl in Hlen; lia | assumption].
Qed.

Lemma zip_add_nonfinite_term (r chunk : list float) (x : float) :
  length r = length chunk ->
  In x chunk -> is_finite x = false ->
  Exists (fun v => is_finite v = false)
         (Binary64.np.zip_with PrimFloat.add r chunk).
Proof.
  revert chunk. induction r as [| q r IH]; intros [| c chunk] Hlen Hin Hx;
    try discriminate; try contradiction; cbn [Binary64.np.zip_with].
  destruct Hin as [Hin | Hin].
  - subst c. left. apply add_nonfinite_r. exact Hx.
  - right. apply IH; [simpl in Hlen; lia | assumption | exact Hx].
Qed.

Lemma zip_with_length {A B C : Type} (f : A -> B -> C) (a : list A) :
  forall b, length (Binary64.np.zip_with f a b)
            = Nat.min (length a) (length b).
Proof.
  induction a as [| x a IH]; intros [| y b]; try reflexivity.
  cbn [Binary64.np.zip_with length]. rewrite IH. reflexivity.
Qed.

Lemma sum_lanes_nonfinite (k : nat) :
  forall (l r : list float) (x : float),
    length l = (8 * k)%nat ->
    length r = 8%nat ->
    (Exists (fun v => is_finite v = false) r
     \/ (In x l /\ is_finite x = false)) ->
    length (Binary64.np.sum_lanes r l) = 8%nat
    /\ Exists (fun v => is_finite v = false) (Binary64.np.sum_lanes r l).
Proof.
  induction k as [| k IH]; intros l r x Hl Hr H.
  - destruct l; [| discriminate]. cbn [Binary64.np.sum_lanes].
    split; [exact Hr |].
    destruct H as [H | [[] _]]. exact H.
  - destruct l as [| a0 [| a1 [| a2 [| a3 [| a4 [| a5 [| a6 [| a7 l']]]]]]]];
      try (simpl in Hl; lia).
    cbn [Binary64.np.sum_lanes].
    assert (Hlen : length r = length [a0; a1; a2; a3; a4; a5; a6; a7])
      by (rewrite Hr; reflexivity).
    apply (IH l' _ x).
    + simpl in Hl. lia.
    + rewrite zip_with_length, Hr. reflexivity.
    + destruct H as [H | [Hin Hx]].
      * left. apply zip_add_nonfinite_lane; assumption.
      * assert (Hsplit : In x [a0; a1; a2; a3; a4; a5; a6; a7] \/ In x l').
        { simpl in Hin. simpl. tauto. }
        destruct Hsplit as [Hc | Hl'].
        -- left. apply (zip_add_nonfinite_term _ _ x Hlen Hc Hx).
        -- right. split; assumption.
Qed.

Lemma tree_nonfinite (s0 s1 s2 s3 s4 s5 s6 s7 : float) :
  Exists (fun v => is_finite v = false) [s0; s1; s2; s3; s4; s5; s6; s7] ->
  is_finite (((s0 + s1) + (s2 + s3)) + ((s4 + s5) + (s6 + s7))) = false.
Proof.
  intro H.
  repeat match goal with
         | H : Exists _ (_ :: _) |- _ => inversion H; clear H; subst
         | H : Exists _ [] |- _ => inversion H
         end;
    repeat first [ assumption
                 | apply add_nonfinite_l; assumption
                 | apply add_nonfinite_r; assumption
                 | apply add_nonfinite_l; apply add_nonfinite_l; assumption
                 | apply add_nonfinite_l; apply add_nonfinite_r; assumption
                 | apply add_nonfinite_r; apply add_nonfinite_l; assumption
                 | apply add_nonfinite_r; apply add_nonfinite_r; assumption
                 | apply add_nonfinite_l; apply add_nonfinite_l;
                   apply add_nonfinite_l; assumption
                 | apply add_nonfinite_l; apply add_nonfinite_l;
                   apply add_nonfinite_r; assumption
                 | apply add_nonfinite_l; apply add_nonfinite_r;
                   apply add_nonfinite_l; assumption
                 | apply add_nonfinite_l; apply add_nonfinite_r;
                   apply add_nonfinite_r; assumption
                 | apply add_nonfinite_r; apply add_nonfinite_l;
                   apply add_nonfinite_l; assumption
                 | apply add_nonfinite_r; apply add_nonfinite_l;
                   apply add_nonfinite_r; assumption
                 | apply add_nonfinite_r; apply add_nonfinite_r;
                   apply add_nonfinite_l; assumption
                 | apply add_nonfinite_r; apply add_nonfinite_r;
                   apply add_nonfinite_r; assumption ].
Qed.

Lemma sum_block_nonfinite (a : list float) (x : float) :
  In x a -> is_finite x = false ->
  is_finite (Binary64.np.sum_block a) = false.
Proof.
  intros Hin Hx.
  destruct a as [| r0 [| r1 [| r2 [| r3 [| r4 [| r5 [| r6 [| r7 rest]]]]]]]];
    try (apply (sum_lt8_nonfinite _ x Hin Hx)).
  unfold Binary64.np.sum_block.
  set (a := r0 :: r1 :: r2 :: r3 :: r4 :: r5 :: r6 :: r7 :: rest) in *.
  set (n := length a).
  set (m := (n - n mod 8 - 8)%nat).
  assert (Hn : n = (8 + length rest)%nat) by reflexivity.
  assert (Hm : exists k, m = (8 * k)%nat).
  { exists (n / 8 - 1)%nat. unfold m.
    pose proof (Nat.div_mod_eq n 8). lia. }
  destruct Hm as [k Hk].
  assert (Hbody : length (firstn m rest) = (8 * k)%nat).
  { rewrite firstn_length_le; [exact Hk |].
    unfold m. lia. }
  assert (Hcases : Exists (fun v => is_finite v = false)
                          [r0; r1; r2; r3; r4; r5; r6; r7]
                   \/ (In x (firstn m rest) /\ is_finite x = false)
                   \/ In x (skipn m rest)).
  { assert (Hrest : In x [r0; r1; r2; r3; r4; r5; r6; r7] \/ In x rest).
    { unfold a in Hin. simpl in Hin. simpl. tauto. }
    destruct Hrest as [H8 | Hrest].
    - left. apply Exists_exists. exists x. split; assumption.
    - right. rewrite <- (firstn_skipn m rest) in Hrest.
      apply in_app_or in Hrest. destruct Hrest; [left; split | right];
        assumption. }
  destruct Hcases as [Hlane | [Hb | Ht]].
  - destruct (sum_lanes_nonfinite k (firstn m rest)
                [r0; r1; r2; r3; r4; r5; r6; r7] x Hbody eq_refl
                (or_introl Hlane)) as [Hlen Hex].
    destruct (Binary64.np.sum_lanes [r0; r1; r2; r3; r4; r5; r6; r7]
                                    (firstn m rest))
      as [| s0 [| s1 [| s2 [| s3 [| s4 [| s5 [| s6 [| s7 [| s8 more]]]]]]]]];
      try discriminate.
    apply fold_add_nonfinite_acc. apply tree_nonfinite. exact Hex.
  - destruct (sum_lanes_nonfinite k (firstn m rest)
                [r0; r1; r2; r3; r4; r5; r6; r7] x Hbody eq_refl
                (or_intror Hb)) as [Hlen Hex].
    destruct (Binary64.np.sum_lanes [r0; r1; r2; r3; r4; r5; r6; r7]
                                    (firstn m rest))
      as [| s0 [| s1 [| s2 [| s3 [| s4 [| s5 [| s6 [| s7 [| s8 more]]]]]]]]];
      try discriminate.
    apply fold_add_nonfinite_acc. apply tree_nonfinite. exact Hex.
  - destruct (Binary64.np.sum_lanes [r0; r1; r2; r3; r4; r5; r6; r7]
                                    (firstn m rest))
      as [| s0 [| s1 [| s2 [| s3 [| s4 [| s5 [| s6 [| s7 [| s8 more]]]]]]]]];
      try (apply (sum_lt8_nonfinite _ x Hin Hx)).
    apply (fold_add_nonfinite_In _ x Ht Hx).
Qed.

Lemma pairwise_sum_nonfinite (fuel : nat) :
  forall (a : list float) (x : float),
    In x a -> is_finite x = false ->
    is_finite (Binary64.np.pairwise_sum fuel a) = false.
Proof.
  induction fuel as [| fuel IH]; intros a x Hin Hx;
    cbn [Binary64.np.pairwise_sum]; cbv zeta;
    destruct (length a <? 8)%nat;
    try (apply (sum_lt8_nonfinite _ x Hin Hx));
    destruct (length a <=? 128)%nat;
    try (apply (sum_block_nonfinite _ x Hin Hx)).
  set (n2 := (length a / 2 - (length a / 2) mod 8)%nat).
  rewrite <- (firstn_skipn n2 a) in Hin.
  apply in_app_or in Hin. destruct Hin as [Hin | Hin].
  - apply add_nonfinite_l. apply (IH _ x Hin Hx).
  - apply add_nonfinite_r. apply (IH _ x Hin Hx).
Qed.

Lemma sum_nonfinite (a : list float) (x : float) :
  In x a -> is_finite x = false -> is_finite (Binary64.np.sum a) = false.
Proof.
  intros Hin Hx. unfold Binary64.np.sum.
  apply add_nonfinite_r. apply (pairwise_sum_nonfinite _ _ x Hin Hx).
Qed.


(** * Further properties of the binary64 program *)

(** ** calculate_reinvestment_rate *)

(** X5. [calculate_reinvestment_rate] raises [ZeroDivisionError] when the
    tax rate is one and [ebit] is finite, and when [ebit] is zero and
    [1 - tax_rate] is finite; the product [ebit * (1 - tax_rate)] can also
    underflow to zero and raise with neither: at [ebit = 2^-1074],
    [tax_rate = 0.5]. *)
Theorem calculate_reinvestment_rate_binary64_raises :
  (forall capex depreciation working_capital_change ebit : float,
      is_finite ebit = true ->
      Binary64.calculate_reinvestment_rate
        capex depreciation working_capital_change ebit 1
      = Raise ZeroDivisionError)
  /\ (forall capex depreciation working_capital_change ebit tax_rate : float,
         (ebit =? 0) = true ->
         is_finite (1 - tax_rate) = true ->
         Binary64.calculate_reinvestment_rate
           capex depreciation working_capital_change ebit tax_rate
         = Raise ZeroDivisionError)
  /\ Binary64.calculate_reinvestment_rate 300 100 50 0x1p-1074 0.5
     = Raise ZeroDivisionError.
Proof.
  split; [| split].
  - intros capex dep wc ebit Hfin.
    unfold Binary64.calculate_reinvestment_rate, Binary64.truediv.
    rewrite (mul_zero_r ebit (1 - 1) Hfin); [reflexivity |].
    vm_compute. reflexivity.
  - intros capex dep wc ebit t Hzero Hfin.
    unfold Binary64.calculate_reinvestment_rate, Binary64.truediv.
    rewrite (mul_zero_l ebit (1 - t) Hzero Hfin). reflexivity.
  - vm_compute. reflexivity.
Qed.

Lemma calculate_reinvestment_rate_binary64_raises_witness :
  (is_finite 1000 = true
   /\ Binary64.calculate_reinvestment_rate 300 100 50 1000 1
      = Raise ZeroDivisionError)
  /\ ((0 =? 0) = true /\ is_finite (1 - 0.25) = true
      /\ Binary64.calculate_reinvestment_rate 300 100 50 0 0.25
         = Raise ZeroDivisionError).
Proof.
  split.
  - split; [vm_compute; reflexivity |].
    apply (proj1 calculate_reinvestment_rate_binary64_raises 300 100 50 1000).
    vm_compute. reflexivity.
  - split; [vm_compute; reflexivity |].
    split; [vm_compute; reflexivity |].
    apply (proj1 (proj2 calculate_reinvestment_rate_binary64_raises)
                 300 100 50 0 0.25);
      vm_compute; reflexivity.
Defined.

(** ** calculate_terminal_value *)

(** X22. [calculate_terminal_value] raises [ZeroDivisionError] whenever
    the discount rate and the growth rate are the same finite float. *)
Theorem calculate_terminal_value_binary64_equal_rates :
  forall final_cash_flow rate : float,
    is_finite rate = true ->
    Binary64.calculate_terminal_value final_cash_flow rate rate
    = Raise ZeroDivisionError.
Proof.
  intros cf r Hfin.
  unfold Binary64.calculate_terminal_value, Binary64.truediv.
  rewrite (sub_diag_zero r Hfin). reflexivity.
Qed.

Lemma calculate_terminal_value_binary64_equal_rates_witness :
  Binary64.calculate_terminal_value 100 0.03 0.03 = Raise ZeroDivisionError.
Proof.
  apply (calculate_terminal_value_binary64_equal_rates 100 0.03).
  vm_compute. reflexivity.
Defined.

(** ** historical_growth_analysis: which outcome the call has *)

Lemma array_size (data : list Binary64.number) (a : Binary64.np.ndarray) :
  Binary64.np.array data = Some a -> Binary64.np.size a = length data.
Proof.
  unfold Binary64.np.array.
  destruct (negb (forallb Binary64.np.fits data)); [discriminate |].
  destruct data as [| x data].
  - intro H. inversion H. reflexivity.
  - destruct (forallb Binary64.np.is_int (x :: data)); intro H;
      inversion H; cbn [Binary64.np.size map length]; f_equal;
      apply length_map.
Qed.

Lemma growth_rates_length (a : Binary64.np.ndarray) :
  length (Binary64.np.true_divide
            (Binary64.np.subtract (Binary64.np.slice_from 1 a)
                                  (Binary64.np.slice_to_last 1 a))
            (Binary64.np.slice_to_last 1 a))
  = (Binary64.np.size a - 1)%nat.
Proof.
  unfold Binary64.np.true_divide.
  destruct a as [l | l];
    cbn [Binary64.np.slice_from Binary64.np.slice_to_last
         Binary64.np.subtract Binary64.np.astype_float Binary64.np.size];
    rewrite !zip_with_length, ?length_map, ?zip_with_length,
      ?length_skipn, ?length_firstn; lia.
Qed.

(** X13. On a list that numpy turns into an int64 or a float64 array, the
    only exception the call can raise is the [ValueError] of the empty
    minimum reduction, and only on fewer than two points: a zero divisor
    raises nothing. *)
Theorem historical_growth_analysis_binary64_raises_only_when_short :
  forall (historical_data : list Binary64.number) (periods : option Z)
         (e : exception),
    Binary64.historical_growth_analysis historical_data periods
    = Some (Raise e) ->
    (length historical_data < 2)%nat
    /\ e = ValueError
             "zero-size array to reduction operation minimum which has no identity".
Proof.
  intros data periods e H.
  unfold Binary64.historical_growth_analysis in H. cbv zeta in H.
  destruct (Binary64.np.array data) as [a |] eqn:Ha; [| discriminate].
  pose proof (growth_rates_length a) as Hlen.
  rewrite (array_size data a Ha) in Hlen.
  destruct (Binary64.np.true_divide
              (Binary64.np.subtract (Binary64.np.slice_from 1 a)
                                    (Binary64.np.slice_to_last 1 a))
              (Binary64.np.slice_to_last 1 a)) as [| g0 g].
  - simpl in Hlen. split; [lia |].
    cbn in H. inversion H. reflexivity.
  - cbn in H. discriminate.
Qed.

Lemma historical_growth_analysis_binary64_raises_only_when_short_witness :
  (length [Binary64.PyInt 5] < 2)%nat
  /\ Binary64.np.zero_size "minimum"
     = ValueError
         "zero-size array to reduction operation minimum which has no identity".
Proof.
  apply (historical_growth_analysis_binary64_raises_only_when_short
           [Binary64.PyInt 5] None (Binary64.np.zero_size "minimum")).
  reflexivity.
Defined.

(** X14. On a list that numpy turns into an int64 or a float64 array, the
    call returns a mapping exactly when the list has at least two points;
    the mapping may hold infinities and nan. *)
Theorem historical_growth_analysis_binary64_returns_iff :
  forall (historical_data : list Binary64.number) (periods : option Z)
         (a : Binary64.np.ndarray),
    Binary64.np.array historical_data = Some a ->
    ((exists d,
         Binary64.historical_growth_analysis historical_data periods
         = Some (Return d))
     <-> (2 <= length historical_data)%nat).
Proof.
  intros data periods a Ha.
  unfold Binary64.historical_growth_analysis. cbv zeta. rewrite Ha.
  pose proof (growth_rates_length a) as Hlen.
  rewrite (array_size data a Ha) in Hlen.
  destruct (Binary64.np.true_divide
              (Binary64.np.subtract (Binary64.np.slice_from 1 a)
                                    (Binary64.np.slice_to_last 1 a))
              (Binary64.np.slice_to_last 1 a)) as [| g0 g].
  - simpl in Hlen. split.
    + intros [d Hd]. cbn in Hd. discriminate.
    + intro H. lia.
  - simpl in Hlen. split.
    + intros _. lia.
    + intros _. eexists. cbn. reflexivity.
Qed.

Lemma historical_growth_analysis_binary64_returns_iff_witness :
  (exists d,
      Binary64.historical_growth_analysis
        [Binary64.PyInt 0; Binary64.PyFloat 2.5; Binary64.PyInt 0] None
      = Some (Return d))
  <-> (2 <= length [Binary64.PyInt 0; Binary64.PyFloat 2.5;
                    Binary64.PyInt 0])%nat.
Proof.
  apply (historical_growth_analysis_binary64_returns_iff
           [Binary64.PyInt 0; Binary64.PyFloat 2.5; Binary64.PyInt 0] None
           (Binary64.np.float64 [0; 2.5; 0])).
  vm_compute. reflexivity.
Defined.

(** X12. A zero among the divisors (every point but the last) raises
    nothing: the call returns, and the mean it returns is an infinity or a
    nan. *)
Theorem historical_growth_analysis_binary64_zero_divisor :
  (forall (data : list float) (periods : option Z) (i : nat),
      (i < length data - 1)%nat ->
      (nth i data 0 =? 0) = true ->
      exists mean_growth median_growth std_dev min_growth max_growth,
        Binary64.historical_growth_analysis (map Binary64.PyFloat data)
                                            periods
        = Some (Return (Binary64.statistics mean_growth median_growth
                                            std_dev min_growth max_growth))
        /\ is_finite mean_growth = false)
  /\ (forall (data : list Z) (periods : option Z) (i : nat),
         forallb Binary64.np.in_int64 data = true ->
         (i < length data - 1)%nat ->
         nth i data 0%Z = 0%Z ->
         exists mean_growth median_growth std_dev min_growth max_growth,
           Binary64.historical_growth_analysis (map Binary64.PyInt data)
                                               periods
           = Some (Return (Binary64.statistics mean_growth median_growth
                                               std_dev min_growth max_growth))
           /\ is_finite mean_growth = false).
Proof.
  split.
  - intros data periods i Hi Hzero.
    destruct (historical_growth_analysis_float64 data periods ltac:(lia))
      as [mean [med [sd [lo [hi [H Hd]]]]]].
    exists mean, med, sd, lo, hi. split; [exact H |].
    destruct Hd as [Hmean _]. rewrite Hmean.
    apply div_nonfinite.
    apply (sum_nonfinite _ (Binary64.growth_rate data i)).
    + unfold Binary64.growth_sequence.
      apply in_map. apply in_seq. lia.
    + unfold Binary64.growth_rate. apply div_by_zero_nonfinite. exact Hzero.
  - intros data periods i Hrange Hi Hzero.
    destruct (historical_growth_analysis_int64 data periods ltac:(lia) Hrange)
      as [mean [med [sd [lo [hi [H Hd]]]]]].
    exists mean, med, sd, lo, hi. split; [exact H |].
    destruct Hd as [Hmean _]. rewrite Hmean.
    apply div_nonfinite.
    apply (sum_nonfinite _ (Binary64.growth_rate_int64 data i)).
    + unfold Binary64.growth_sequence_int64.
      apply in_map. apply in_seq. lia.
    + unfold Binary64.growth_rate_int64. apply div_by_zero_nonfinite.
      rewrite Hzero. vm_compute. reflexivity.
Qed.

Lemma historical_growth_analysis_binary64_zero_divisor_witness :
  (exists mean_growth median_growth std_dev min_growth max_growth,
      Binary64.historical_growth_analysis
        (map Binary64.PyFloat [4; 0; 2.5]) None
      = Some (Return (Binary64.statistics mean_growth median_growth
                                          std_dev min_growth max_growth))
      /\ is_finite mean_growth = false)
  /\ (exists mean_growth median_growth std_dev min_growth max_growth,
         Binary64.historical_growth_analysis
           (map Binary64.PyInt [4; 0; 2]%Z) None
         = Some (Return (Binary64.statistics mean_growth median_growth
                                             std_dev min_growth max_growth))
         /\ is_finite mean_growth = false).
Proof.
  split.
  - apply (proj1 historical_growth_analysis_binary64_zero_divisor
                 [4; 0; 2.5] None 1%nat).
    + simpl. lia.
    + vm_compute. reflexivity.
  - apply (proj2 historical_growth_analysis_binary64_zero_divisor
                 [4; 0; 2]%Z None 1%nat).
    + reflexivity.
    + simpl. lia.
    + reflexivity.
Defined.
